(** * lumol documentation configuration: the [version] helper of [doc/src/conf.py]

    The configuration module is a table of constants plus one function,

<<
    def version():
        parsed = toml.loads(open(os.path.join("..", "..", "Cargo.toml")).read())
        release = parsed["package"]["version"]
        version = ".".join(release.split(".")[:2])
        return version, release
>>

    This development embeds that function: the Python string primitives it
    calls ([str.split], list slicing, [str.join]), the value universe of a
    parsed TOML document, the exceptions raised along the way, and the file
    system the manifest is read from. *)

From Stdlib Require Import String Ascii List ZArith Lia.
From stdpp Require Import base tactics option list strings gmap.

Local Open Scope string_scope.

(** stdpp blocks the reduction of string concatenation; the proofs below
    compute with it. *)
Local Arguments String.append !_ _ / : simpl nomatch.

(** ** Python string primitives *)

Module PyStr.

(** [s.split(sep)] for a separator of one character: a left-to-right scan
    that closes the current component at every occurrence of [sep].  The
    auxiliary function returns the component under construction and the
    components after it, so the result is never the empty list
    (["".split(".") == [""]]). *)
Fixpoint split_scan (sep : ascii) (s : string) : string * list string :=
  match s with
  | EmptyString => (EmptyString, [])
  | String c rest =>
      let '(w, ws) := split_scan sep rest in
      if Ascii.eqb c sep then (EmptyString, w :: ws) else (String c w, ws)
  end.

Definition split (sep : ascii) (s : string) : list string :=
  let '(w, ws) := split_scan sep s in w :: ws.

(** [sep.join(parts)]. *)
Fixpoint join (sep : string) (parts : list string) : string :=
  match parts with
  | [] => EmptyString
  | p :: ps =>
      match ps with
      | [] => p
      | _ :: _ => p +:+ sep +:+ join sep ps
      end
  end.

(** [parts[:n]] for a non-negative literal [n]. *)
Definition slice_to {A} (n : nat) (parts : list A) : list A := take n parts.

(** Number of occurrences of a character, [s.count(c)]. *)
Fixpoint count (c : ascii) (s : string) : nat :=
  match s with
  | EmptyString => 0
  | String d rest => (if Ascii.eqb d c then 1 else 0) + count c rest
  end.

(** [s.startswith(p)], as a proposition. *)
Definition startswith (s p : string) : Prop := exists rest, s = p +:+ rest.

End PyStr.

(** ** The derivation of [version] from [release] (line 34) *)

Definition dot : ascii := "."%char.

(** [".".join(release.split(".")[:2])] *)
Definition version_of_release (release : string) : string :=
  PyStr.join "." (PyStr.slice_to 2 (PyStr.split dot release)).

(** ** Parsed TOML documents

    [toml.loads] returns a [dict] whose values are Python strings, integers,
    floats, booleans, datetimes, lists and nested dicts. *)

#[warnings="-register-all"]
Inductive toml_value : Type :=
  | TString (s : string)
  | TInteger (z : Z)
  | TFloat (lexeme : string)
  | TBool (b : bool)
  | TDatetime (lexeme : string)
  | TArray (items : list toml_value)
  | TTable (entries : gmap string toml_value).

(** ** Python values bound to names *)

#[warnings="-register-all"]
Inductive pyval : Type :=
  | PNone
  | PBool (b : bool)
  | PInt (z : Z)
  | PFloat (lexeme : string)
  | PStr (s : string)
  | PDatetime (lexeme : string)
  | PList (items : list pyval)
  | PTuple (items : list pyval)
  | PDict (entries : gmap string pyval)
  | PFunction (name : string)
  | PModule (name : string).


(** ** Exceptions *)

Inductive exn : Type :=
  | FileNotFoundError (filename : string)
  | IsADirectoryError (filename : string)
  | PermissionError (filename : string)
  | UnicodeDecodeError
  | TomlDecodeError (msg : string)
  | KeyError (key : string)
  | TypeError
  | AttributeError.

(** ** File system and process state

    Absolute locations are lists of path components below the root.  A
    relative path given to [open] is resolved by the operating system against
    the current working directory of the process. *)

(** What sits at a location: a regular file whose bytes decode to [content]
    in the encoding [open] uses, a regular file whose bytes that encoding
    rejects, a regular file the process may not read, or a directory. *)
Inductive node : Type :=
  | File (content : string)
  | Garbled
  | Unreadable
  | Dir.

(** File accesses.  [EvFinalize] is the interpreter closing a file object
    that the program dropped without closing it. *)
Inductive event : Type :=
  | EvOpen (loc : list string)
  | EvRead (loc : list string)
  | EvFinalize (loc : list string).

(** Besides the file system, the state holds what the interpreter keeps
    about warnings: the counter [warnings._filters_version], and the
    binding of [__warningregistry__] in the globals of the module that
    defines [version] ([None]: the name is unbound). *)
Record world : Type := World {
  cwd : list string;
  files : gmap (list string) node;
  trace : list event;
  warning_registry : option pyval;
  filters_version : Z
}.

Definition log (e : event) (w : world) : world :=
  {| cwd := cwd w; files := files w; trace := trace w ++ [e];
     warning_registry := warning_registry w;
     filters_version := filters_version w |}.

(** *** Paths (POSIX) *)

Definition slash : ascii := "/"%char.

Definition starts_with_slash (p : string) : bool :=
  match p with
  | String c _ => Ascii.eqb c slash
  | EmptyString => false
  end.

Fixpoint ends_with_slash (p : string) : bool :=
  match p with
  | EmptyString => false
  | String c EmptyString => Ascii.eqb c slash
  | String _ rest => ends_with_slash rest
  end.

(** One iteration of the loop of [posixpath.join]. *)
Definition path_join_step (path b : string) : string :=
  if starts_with_slash b then b
  else if String.eqb path "" || ends_with_slash path then path +:+ b
  else path +:+ "/" +:+ b.

(** [os.path.join(a, *p)] *)
Definition os_path_join (a : string) (p : list string) : string :=
  foldl path_join_step a p.

Definition parent (loc : list string) : list string :=
  take (length loc - 1) loc.

(** Walking one component from a directory; the parent of the root is the
    root. *)
Definition walk (loc : list string) (c : string) : list string :=
  if String.eqb c "" || String.eqb c "." then loc
  else if String.eqb c ".." then parent loc
  else loc ++ [c].

(** Resolution of a path name against the working directory. *)
Definition resolve (wd : list string) (p : string) : list string :=
  foldl walk (if starts_with_slash p then [] else wd) (PyStr.split slash p).

(** ** Computations that read the world and may raise *)

Definition io (A : Type) : Type := world -> (exn + A) * world.

Definition io_ret {A} (a : A) : io A := fun w => (inr a, w).

Definition io_raise {A} (e : exn) : io A := fun w => (inl e, w).

Definition io_bind {A B} (m : io A) (k : A -> io B) : io B :=
  fun w =>
    match m w with
    | (inr a, w') => k a w'
    | (inl e, w') => (inl e, w')
    end.

Notation "'do' x <~ m ;; k" := (io_bind m (fun x => k))
  (at level 10, x name, m at level 99, k at level 200, only parsing).

(** *** Primitives *)

(** An open file object: where it was opened and what its bytes decode to
    ([None]: they do not decode). *)
Record file_object : Type := FileObject {
  fo_loc : list string;
  fo_text : option string
}.

(** [open(p)] with the default mode ['r']. *)
Definition py_open (p : string) : io file_object :=
  fun w =>
    let loc := resolve (cwd w) p in
    let w' := log (EvOpen loc) w in
    if String.eqb p "" then (inl (FileNotFoundError p), w')
    else
      match files w !! loc with
      | Some (File content) => (inr (FileObject loc (Some content)), w')
      | Some Garbled => (inr (FileObject loc None), w')
      | Some Unreadable => (inl (PermissionError p), w')
      | Some Dir => (inl (IsADirectoryError p), w')
      | None => (inl (FileNotFoundError p), w')
      end.

(** [f.read()]: the bytes are read, then decoded. *)
Definition file_read (f : file_object) : io string :=
  fun w =>
    match fo_text f with
    | Some content => (inr content, log (EvRead (fo_loc f)) w)
    | None => (inl UnicodeDecodeError, log (EvRead (fo_loc f)) w)
    end.

(** The registry after the warning machinery has looked at it for a warning
    that the filters ignore, as they do with [ResourceWarning] unless told
    otherwise: an unbound name gets a fresh dictionary, a dictionary of
    another filters version is emptied, and both end up holding the current
    version; a dictionary of the current version and a value that is no
    dictionary are left alone. *)
Definition registry_after (fv : Z) (old : option pyval) : pyval :=
  match old with
  | None => PDict {[ "version" := PInt fv ]}
  | Some (PDict r) =>
      match r !! "version" with
      | Some (PInt z) =>
          if Z.eqb z fv then PDict r else PDict {[ "version" := PInt fv ]}
      | _ => PDict {[ "version" := PInt fv ]}
      end
  | Some v => v
  end.

(** The interpreter finalising a file object whose last reference is gone
    while it is still open: it closes the file and issues a
    [ResourceWarning] in the running function, whose module globals get
    their [__warningregistry__]. *)
Definition file_finalize (loc : list string) (w : world) : world :=
  {| cwd := cwd w; files := files w;
     trace := trace w ++ [EvFinalize loc];
     warning_registry :=
       Some (registry_after (filters_version w) (warning_registry w));
     filters_version := filters_version w |}.

(** A computation on a file object nothing else refers to: when it is
    over, with a value or with an exception, the object is finalised. *)
Definition on_temporary {A} (f : file_object) (m : io A) : io A :=
  fun w => let '(r, w') := m w in (r, file_finalize (fo_loc f) w').

(** [v[key]] for a string key: dictionaries look the key up, every other
    TOML value rejects a string subscript. *)
Definition py_getitem (v : toml_value) (key : string) : io toml_value :=
  match v with
  | TTable entries =>
      match entries !! key with
      | Some x => io_ret x
      | None => io_raise (KeyError key)
      end
  | _ => io_raise TypeError
  end.

(** [v.split(sep)]: only strings have the method. *)
Definition py_split (v : toml_value) (sep : ascii) : io (list string) :=
  match v with
  | TString s => io_ret (PyStr.split sep s)
  | _ => io_raise AttributeError
  end.

Section Version.

(** The TOML parser is a library outside the repository: it maps a text to
    either a decode error or the top-level table. *)
Variable loads : string -> string + gmap string toml_value.

(** [toml.loads(s)] *)
Definition toml_loads (s : string) : io toml_value :=
  match loads s with
  | inr doc => io_ret (TTable doc)
  | inl msg => io_raise (TomlDecodeError msg)
  end.

(** The path literal of line 32. *)
Definition manifest_name : string := os_path_join ".." [".."; "Cargo.toml"].

(** [version()], lines 31-35.  The file object of line 32 is bound to no
    name and never closed: it is a temporary of the expression
    [open(...).read()]. *)
Definition version : io (string * toml_value) :=
  do f <~ py_open manifest_name ;;
  do content <~ on_temporary f (file_read f) ;;
  do parsed <~ toml_loads content ;;
  do package <~ py_getitem parsed "package" ;;
  do release <~ py_getitem package "version" ;;
  do parts <~ py_split release dot ;;
  io_ret (PyStr.join "." (PyStr.slice_to 2 parts), release).

End Version.

(** Location the operating system opens for the path literal of line 32. *)
Definition manifest_loc (w : world) : list string :=
  resolve (cwd w) manifest_name.

(** The state after [open(...).read()] on a manifest that could be opened:
    opened, read, and finalised by the interpreter. *)
Definition after_read (w : world) : world :=
  file_finalize (manifest_loc w)
    (log (EvRead (manifest_loc w)) (log (EvOpen (manifest_loc w)) w)).

(** The accesses one call adds to the trace. *)
Definition manifest_accesses (w : world) : list event :=
  EvOpen (manifest_loc w) ::
  match files w !! manifest_loc w with
  | Some (File _) | Some Garbled =>
      [EvRead (manifest_loc w); EvFinalize (manifest_loc w)]
  | _ => []
  end.

(** The registry one call leaves: the interpreter touches it when, and only
    when, a file object was created. *)
Definition registry_left (w : world) : option pyval :=
  match files w !! manifest_loc w with
  | Some (File _) | Some Garbled =>
      Some (registry_after (filters_version w) (warning_registry w))
  | _ => warning_registry w
  end.

(** ** The cut a truncation makes *)

(** The part of [s] in front of occurrence number [k] (counted from 0) of the
    character [c]; all of [s] when [c] occurs at most [k] times. *)
Fixpoint before_occurrence (c : ascii) (k : nat) (s : string) : string :=
  match s with
  | EmptyString => EmptyString
  | String d rest =>
      if Ascii.eqb d c then
        match k with
        | O => EmptyString
        | S k' => String d (before_occurrence c k' rest)
        end
      else String d (before_occurrence c k rest)
  end.

(** ** A concrete checkout *)

Definition demo_manifest : string :=
"[package]
name = 'lumol'
version = '0.7.2'
".

Definition demo_package : gmap string toml_value :=
  {[ "name" := TString "lumol"; "version" := TString "0.7.2" ]}.

Definition demo_doc : gmap string toml_value :=
  {[ "package" := TTable demo_package ]}.

Definition demo_loads (s : string) : string + gmap string toml_value :=
  if String.eqb s demo_manifest then inr demo_doc else inl "invalid TOML".

Definition demo_files : gmap (list string) node :=
  {[ ["repo"] := Dir;
     ["repo"; "Cargo.toml"] := File demo_manifest;
     ["repo"; "doc"] := Dir;
     ["repo"; "doc"; "src"] := Dir;
     ["repo"; "doc"; "src"; "conf.py"] := File "";
     ["tmp"] := Dir;
     ["tmp"; "build"] := Dir ]}.

(** The documentation build started in the directory of [conf.py], in a
    fresh interpreter. *)
Definition demo_world : world :=
  {| cwd := ["repo"; "doc"; "src"]; files := demo_files; trace := [];
     warning_registry := None; filters_version := 0 |}.

(** The same checkout, the interpreter started elsewhere. *)
Definition stray_world : world :=
  {| cwd := ["tmp"; "build"]; files := demo_files; trace := [];
     warning_registry := None; filters_version := 0 |}.

Definition conf_py : list string := ["repo"; "doc"; "src"; "conf.py"].

(** The manifest two directory levels above the directory that holds the
    configuration file. *)
Definition conf_relative_manifest (conf_file : list string) : list string :=
  parent (parent (parent conf_file)) ++ ["Cargo.toml"].







(** ** The module body of [conf.py]

    Executing the configuration file binds names in the namespace the
    documentation host hands to it.  The body is a sequence of assignments
    of literals around one call, [version, release = version()] (line 41).
    The imports of lines 3-4 are taken to succeed, and inside [version] the
    names [toml], [os] and [open] stand for the two modules and the
    builtin. *)








Section Conf.

Variable loads : string -> string + gmap string toml_value.


End Conf.


(** * Properties of the string primitives *)

Section SplitJoin.

Variable sep : ascii.

Lemma str_app_assoc (a b c : string) : (a +:+ b) +:+ c = a +:+ b +:+ c.
Proof. induction a as [|x a IH]; simpl; [reflexivity | now rewrite IH]. Qed.

Lemma str_app_nil_r (a : string) : a +:+ "" = a.
Proof. induction a as [|x a IH]; simpl; [reflexivity | now rewrite IH]. Qed.

Lemma str_length_app (a b : string) :
  String.length (a +:+ b) = (String.length a + String.length b)%nat.
Proof. induction a as [|x a IH]; simpl; [reflexivity | now rewrite IH]. Qed.

Lemma count_app (a b : string) :
  PyStr.count sep (a +:+ b) = (PyStr.count sep a + PyStr.count sep b)%nat.
Proof. induction a as [|x a IH]; simpl; [reflexivity | rewrite IH; lia]. Qed.

(** Unfolding equations of [split]. *)
Lemma split_nil : PyStr.split sep "" = [""].
Proof. reflexivity. Qed.

Lemma split_cons_sep (s : string) :
  PyStr.split sep (String sep s) = "" :: PyStr.split sep s.
Proof.
  unfold PyStr.split; simpl.
  destruct (PyStr.split_scan sep s) as [w ws].
  now rewrite Ascii.eqb_refl.
Qed.

Lemma split_cons_other (c : ascii) (s : string) :
  c <> sep ->
  PyStr.split sep (String c s) =
    match PyStr.split sep s with
    | w :: ws => String c w :: ws
    | [] => []
    end.
Proof.
  intros Hc. unfold PyStr.split; simpl.
  destruct (PyStr.split_scan sep s) as [w ws].
  apply Ascii.eqb_neq in Hc. now rewrite Hc.
Qed.

Lemma split_not_nil (s : string) : PyStr.split sep s <> [].
Proof. unfold PyStr.split. now destruct (PyStr.split_scan sep s). Qed.

(** A string has one component more than it has separators. *)
Lemma split_length (s : string) :
  length (PyStr.split sep s) = S (PyStr.count sep s).
Proof.
  induction s as [|c s IH]; [reflexivity|].
  simpl PyStr.count. destruct (Ascii.eqb_spec c sep) as [->|Hc].
  - rewrite split_cons_sep. simpl. now rewrite IH.
  - rewrite split_cons_other by assumption.
    destruct (PyStr.split sep s); simpl in *; lia.
Qed.

(** No component contains the separator. *)
Lemma split_sep_free (s : string) :
  Forall (fun w => PyStr.count sep w = 0%nat) (PyStr.split sep s).
Proof.
  induction s as [|c s IH]; [repeat constructor|].
  destruct (Ascii.eqb_spec c sep) as [->|Hc].
  - rewrite split_cons_sep. now constructor.
  - rewrite split_cons_other by assumption.
    destruct (PyStr.split sep s) as [|w ws]; [constructor|].
    inversion IH as [|? ? Hw Hws]; subst. constructor; [|assumption].
    simpl. apply Ascii.eqb_neq in Hc. now rewrite Hc.
Qed.

(** Joining the components with the separator gives the string back. *)
Lemma join_split (s : string) : PyStr.join (String sep "") (PyStr.split sep s) = s.
Proof.
  induction s as [|c s IH]; [reflexivity|].
  destruct (Ascii.eqb_spec c sep) as [->|Hc].
  - rewrite split_cons_sep.
    pose proof (split_not_nil s) as Hne.
    destruct (PyStr.split sep s) as [|w ws] eqn:E; [congruence|].
    change (PyStr.join (String sep "") ("" :: w :: ws))
      with ("" +:+ (String sep "") +:+ PyStr.join (String sep "") (w :: ws)).
    rewrite IH. reflexivity.
  - rewrite split_cons_other by assumption.
    pose proof (split_not_nil s) as Hne.
    destruct (PyStr.split sep s) as [|w ws] eqn:E; [congruence|].
    destruct ws as [|w' ws].
    + simpl in *. now rewrite IH.
    + change (PyStr.join (String sep "") (String c w :: w' :: ws))
        with (String c (w +:+ (String sep "") +:+ PyStr.join (String sep "") (w' :: ws))).
      change (PyStr.join (String sep "") (w :: w' :: ws))
        with (w +:+ (String sep "") +:+ PyStr.join (String sep "") (w' :: ws)) in IH.
      now rewrite IH.
Qed.

(** Splitting a separator-free string in front of a separator. *)
Lemma split_app_sep (w s : string) :
  PyStr.count sep w = 0%nat ->
  PyStr.split sep (w +:+ String sep s) = w :: PyStr.split sep s.
Proof.
  induction w as [|c w IH]; intros Hw.
  - apply split_cons_sep.
  - simpl in Hw. destruct (Ascii.eqb_spec c sep) as [->|Hc]; [discriminate|].
    simpl String.append. rewrite split_cons_other by assumption.
    now rewrite IH.
Qed.

Lemma split_sep_free_word (w : string) :
  PyStr.count sep w = 0%nat -> PyStr.split sep w = [w].
Proof.
  induction w as [|c w IH]; intros Hw; [reflexivity|].
  simpl in Hw. destruct (Ascii.eqb_spec c sep) as [->|Hc]; [discriminate|].
  rewrite split_cons_other by assumption. now rewrite IH.
Qed.

(** [split] undoes [join] on a non-empty list of separator-free words. *)
Lemma split_join (ws : list string) :
  ws <> [] ->
  Forall (fun w => PyStr.count sep w = 0%nat) ws ->
  PyStr.split sep (PyStr.join (String sep "") ws) = ws.
Proof.
  induction ws as [|w ws IH]; intros Hne Hall; [congruence|].
  inversion Hall as [|? ? Hw Hws]; subst.
  destruct ws as [|w' ws].
  - simpl. now apply split_sep_free_word.
  - change (PyStr.join (String sep "") (w :: w' :: ws))
      with (w +:+ String sep (PyStr.join (String sep "") (w' :: ws))).
    rewrite split_app_sep by assumption.
    now rewrite IH.
Qed.

(** [join] over a concatenation. *)
Lemma join_app (xs ys : list string) :
  xs <> [] -> ys <> [] ->
  PyStr.join (String sep "") (xs ++ ys) =
    PyStr.join (String sep "") xs +:+ (String sep "") +:+ PyStr.join (String sep "") ys.
Proof.
  induction xs as [|x xs IH]; intros Hx Hy; [congruence|].
  destruct xs as [|x' xs].
  - destruct ys; [congruence | reflexivity].
  - change (PyStr.join (String sep "") ((x :: x' :: xs) ++ ys))
      with (x +:+ (String sep "") +:+ PyStr.join (String sep "") ((x' :: xs) ++ ys)).
    rewrite IH by congruence.
    change (PyStr.join (String sep "") (x :: x' :: xs))
      with (x +:+ (String sep "") +:+ PyStr.join (String sep "") (x' :: xs)).
    now rewrite !str_app_assoc.
Qed.

(** The separators of a joined list of separator-free words are exactly the
    inserted ones. *)
Lemma count_join (ws : list string) :
  Forall (fun w => PyStr.count sep w = 0%nat) ws ->
  PyStr.count sep (PyStr.join (String sep "") ws) = (length ws - 1)%nat.
Proof.
  induction ws as [|w ws IH]; intros Hall; [reflexivity|].
  inversion Hall as [|? ? Hw Hws]; subst.
  destruct ws as [|w' ws]; [simpl; lia|].
  change (PyStr.join (String sep "") (w :: w' :: ws))
    with (w +:+ String sep (PyStr.join (String sep "") (w' :: ws))).
  rewrite count_app.
  change (PyStr.count sep (String sep (PyStr.join (String sep "") (w' :: ws))))
    with ((if Ascii.eqb sep sep then 1 else 0)
          + PyStr.count sep (PyStr.join (String sep "") (w' :: ws)))%nat.
  rewrite Ascii.eqb_refl, IH by assumption. simpl length. lia.
Qed.

End SplitJoin.

(** * The truncation of line 34 *)

Lemma join_cons_char (sep : string) (c : ascii) (w : string) (ws : list string) :
  PyStr.join sep (String c w :: ws) = String c (PyStr.join sep (w :: ws)).
Proof. destruct ws; reflexivity. Qed.

Lemma join_take_split (sep : ascii) (k : nat) (s : string) :
  PyStr.join (String sep "") (take (S k) (PyStr.split sep s)) =
    before_occurrence sep k s.
Proof.
  revert k. induction s as [|c s IH]; intros k; [now destruct k|].
  simpl before_occurrence. destruct (Ascii.eqb_spec c sep) as [->|Hc].
  - rewrite split_cons_sep. destruct k as [|k]; [reflexivity|].
    specialize (IH k). pose proof (split_not_nil sep s) as Hne.
    destruct (PyStr.split sep s) as [|w ws]; [congruence|].
    change (take (S (S k)) ("" :: w :: ws)) with ("" :: w :: take k ws).
    change (PyStr.join (String sep "") ("" :: w :: take k ws))
      with (String sep (PyStr.join (String sep "") (w :: take k ws))).
    now rewrite <- IH.
  - rewrite split_cons_other by assumption.
    specialize (IH k). pose proof (split_not_nil sep s) as Hne.
    destruct (PyStr.split sep s) as [|w ws]; [congruence|].
    change (take (S k) (String c w :: ws)) with (String c w :: take k ws).
    rewrite join_cons_char. now rewrite <- IH.
Qed.

Lemma before_occurrence_prefix (c : ascii) (k : nat) (s : string) :
  PyStr.startswith s (before_occurrence c k s).
Proof.
  revert k. induction s as [|d s IH]; intros k; [now exists ""|].
  simpl. destruct (Ascii.eqb d c).
  - destruct k as [|k]; [now exists (String d s)|].
    destruct (IH k) as [rest Hrest]. exists rest. simpl. now rewrite <- Hrest.
  - destruct (IH k) as [rest Hrest]. exists rest. simpl. now rewrite <- Hrest.
Qed.

Lemma version_of_release_before (release : string) :
  version_of_release release = before_occurrence dot 1 release.
Proof. apply join_take_split. Qed.

Lemma version_of_release_prefix (release : string) :
  PyStr.startswith release (version_of_release release).
Proof. rewrite version_of_release_before. apply before_occurrence_prefix. Qed.

Lemma version_parts_sep_free (release : string) :
  Forall (fun w => PyStr.count dot w = 0%nat)
         (PyStr.slice_to 2 (PyStr.split dot release)).
Proof. apply Forall_take, split_sep_free. Qed.

Lemma version_parts_not_nil (release : string) :
  PyStr.slice_to 2 (PyStr.split dot release) <> [].
Proof.
  pose proof (split_not_nil dot release).
  now destruct (PyStr.split dot release).
Qed.

Lemma version_of_release_count (release : string) :
  PyStr.count dot (version_of_release release) =
    (length (PyStr.slice_to 2 (PyStr.split dot release)) - 1)%nat.
Proof. apply (count_join dot), version_parts_sep_free. Qed.

Lemma version_of_release_single (release : string) :
  (length (PyStr.split dot release) < 2)%nat ->
  version_of_release release = release.
Proof.
  intros Hlen. unfold version_of_release, PyStr.slice_to.
  rewrite take_ge by lia. apply (join_split dot).
Qed.

(** * The function [version] *)

Lemma manifest_loc_eq (w : world) :
  manifest_loc w = (parent (parent (cwd w)) ++ ["Cargo.toml"])%list.
Proof. reflexivity. Qed.



Section VersionFacts.

Variable loads : string -> string + gmap string toml_value.

(** Every path through [version], spelled out. *)
Lemma version_unfold (w : world) :
  version loads w =
    match files w !! manifest_loc w with
    | None => (inl (FileNotFoundError manifest_name), log (EvOpen (manifest_loc w)) w)
    | Some Dir => (inl (IsADirectoryError manifest_name), log (EvOpen (manifest_loc w)) w)
    | Some Unreadable => (inl (PermissionError manifest_name), log (EvOpen (manifest_loc w)) w)
    | Some Garbled => (inl UnicodeDecodeError, after_read w)
    | Some (File content) =>
        match loads content with
        | inl msg => (inl (TomlDecodeError msg), after_read w)
        | inr doc =>
            match doc !! "package" with
            | None => (inl (KeyError "package"), after_read w)
            | Some (TTable pkg) =>
                match pkg !! "version" with
                | None => (inl (KeyError "version"), after_read w)
                | Some (TString s) =>
                    (inr (version_of_release s, TString s), after_read w)
                | Some _ => (inl AttributeError, after_read w)
                end
            | Some _ => (inl TypeError, after_read w)
            end
        end
    end.
Proof.
  unfold version, io_bind, py_open, on_temporary, file_read, toml_loads,
    after_read.
  change (resolve (cwd w) manifest_name) with (manifest_loc w).
  change (String.eqb manifest_name "") with false. cbv iota.
  destruct (files w !! manifest_loc w) as [[content| | |]|] eqn:Hf;
    try reflexivity.
  cbn [fo_text fo_loc].
  destruct (loads content) as [msg|doc]; [reflexivity|].
  cbn [io_ret py_getitem].
  destruct (doc !! "package") as [[]|]; try reflexivity.
  cbn [io_ret py_getitem].
  destruct (entries !! "version") as [[]|]; reflexivity.
Qed.

(** A returned pair always stems from a string stored in the manifest. *)
Lemma version_returns_inv (w w' : world) (v : string) (rel : toml_value) :
  version loads w = (inr (v, rel), w') ->
  exists content doc pkg s,
    files w !! manifest_loc w = Some (File content) /\
    loads content = inr doc /\
    doc !! "package" = Some (TTable pkg) /\
    pkg !! "version" = Some (TString s) /\
    rel = TString s /\ v = version_of_release s /\ w' = after_read w.
Proof.
  rewrite version_unfold.
  destruct (files w !! manifest_loc w) as [[content| | |]|]; try discriminate.
  destruct (loads content) as [msg|doc] eqn:Hl; try discriminate.
  destruct (doc !! "package") as [[]|] eqn:Hp; try discriminate.
  destruct (entries !! "version") as [[]|] eqn:Hv; try discriminate.
  intros [= <- <- <-]. now exists content, doc, entries, s.
Qed.

(** The state a call leaves behind, whatever its outcome. *)
Lemma version_final_world (w : world) :
  snd (version loads w) =
    {| cwd := cwd w; files := files w;
       trace := trace w ++ manifest_accesses w;
       warning_registry := registry_left w;
       filters_version := filters_version w |}.
Proof.
  rewrite version_unfold. unfold manifest_accesses, registry_left.
  assert (Hread : after_read w =
            {| cwd := cwd w; files := files w;
               trace := trace w ++
                 [EvOpen (manifest_loc w); EvRead (manifest_loc w);
                  EvFinalize (manifest_loc w)];
               warning_registry :=
                 Some (registry_after (filters_version w) (warning_registry w));
               filters_version := filters_version w |}).
  { unfold after_read, file_finalize, log; cbn [cwd files trace
      warning_registry filters_version]. now rewrite <- !app_assoc. }
  destruct (files w !! manifest_loc w) as [[content| | |]|];
    try reflexivity; try exact Hread.
  destruct (loads content) as [msg|doc]; [exact Hread|].
  destruct (doc !! "package") as [[]|]; try exact Hread.
  destruct (entries !! "version") as [[]|]; exact Hread.
Qed.

(** The file system and the working directory are the same before and
    after, whatever the outcome. *)
Lemma version_frame (w : world) :
  files (snd (version loads w)) = files w /\
  cwd (snd (version loads w)) = cwd w.
Proof. now rewrite version_final_world. Qed.

Lemma trace_after_read (w : world) :
  trace (after_read w) =
    (trace w ++ [EvOpen (manifest_loc w); EvRead (manifest_loc w);
                 EvFinalize (manifest_loc w)])%list.
Proof.
  unfold after_read, file_finalize, log; cbn [trace].
  now rewrite <- !app_assoc.
Qed.

(** The two failures of a manifest that parses and holds something else
    than a table with a string: a [package] entry that is not a table cannot
    be subscripted by a string, and a [version] entry that is not a string
    has no [split]. *)
Lemma version_package_not_table (w : world) (content : string)
    (doc : gmap string toml_value) (v : toml_value) :
  files w !! manifest_loc w = Some (File content) ->
  loads content = inr doc ->
  doc !! "package" = Some v ->
  (forall pkg, v <> TTable pkg) ->
  fst (version loads w) = inl TypeError.
Proof.
  intros Hfile Hloads Hpkg Hv. rewrite version_unfold, Hfile, Hloads, Hpkg.
  destruct v; try reflexivity. now destruct (Hv entries).
Qed.

Lemma version_not_a_string (w : world) (content : string)
    (doc pkg : gmap string toml_value) (v : toml_value) :
  files w !! manifest_loc w = Some (File content) ->
  loads content = inr doc ->
  doc !! "package" = Some (TTable pkg) ->
  pkg !! "version" = Some v ->
  (forall s, v <> TString s) ->
  fst (version loads w) = inl AttributeError.
Proof.
  intros Hfile Hloads Hpkg Hver Hv.
  rewrite version_unfold, Hfile, Hloads, Hpkg, Hver.
  destruct v; try reflexivity. now destruct (Hv s).
Qed.

End VersionFacts.

(** * Evaluation on concrete inputs *)

Example version_of_release_0_7_2 : version_of_release "0.7.2" = "0.7".
Proof. reflexivity. Qed.

Example version_of_release_empty : version_of_release "" = "".
Proof. reflexivity. Qed.

Example version_of_release_dots : version_of_release "..." = ".".
Proof. reflexivity. Qed.

Example manifest_name_eq : manifest_name = "../../Cargo.toml".
Proof. reflexivity. Qed.

Example resolve_manifest :
  resolve ["repo"; "doc"; "src"] manifest_name = ["repo"; "Cargo.toml"].
Proof. reflexivity. Qed.

Example demo_lookup :
  files demo_world !! manifest_loc demo_world = Some (File demo_manifest).
Proof. vm_compute. reflexivity. Qed.


(** * Claims about the derivation of [version] from [release] *)

(** C1: for every release string with at least two dot-separated
    components, the derived version is exactly the first two components
    rejoined with a single ['.']. *)
Theorem version_first_two_components (release c1 c2 : string) (rest : list string) :
  PyStr.split dot release = c1 :: c2 :: rest ->
  version_of_release release = c1 +:+ "." +:+ c2.
Proof. intros Hsplit. unfold version_of_release. now rewrite Hsplit. Qed.

(** The two examples of C1: ["0.7.2"] gives ["0.7"] and ["2.10"] gives
    ["2.10"]. *)
Lemma version_first_two_components_witness :
  PyStr.split dot "0.7.2" = ["0"; "7"; "2"] /\
  version_of_release "0.7.2" = "0.7" /\
  version_of_release "2.10" = "2.10".
Proof.
  split; [reflexivity|]. split.
  - apply (version_first_two_components "0.7.2" "0" "7" ["2"]). reflexivity.
  - apply (version_first_two_components "2.10" "2" "10" []). reflexivity.
Defined.

(** A string without the separator is a single component, and conversely. *)
Lemma single_component_iff (release : string) :
  (length (PyStr.split dot release) < 2)%nat <-> PyStr.count dot release = 0%nat.
Proof. rewrite split_length. lia. Qed.

(** C4: for every release string with fewer than two dot-separated
    components, that is, one that contains no ['.'], the derived version is
    the release itself. *)
Theorem version_without_dot (release : string) :
  (length (PyStr.split dot release) < 2)%nat ->
  PyStr.count dot release = 0%nat /\ version_of_release release = release.
Proof.
  intros Hlen. split.
  - now apply single_component_iff.
  - now apply version_of_release_single.
Qed.

(** The example of C4: ["1"] gives ["1"]. *)
Lemma version_without_dot_witness :
  (length (PyStr.split dot "1") < 2)%nat /\
  PyStr.count dot "1" = 0%nat /\ version_of_release "1" = "1".
Proof.
  split; [vm_compute; lia|].
  apply (version_without_dot "1"). vm_compute. lia.
Defined.

(** C7: the derived version is a textual prefix of the release: the release
    cut just in front of its second ['.'] when it has at least two
    components (all of it when there is no second ['.']), and the release
    itself when it has fewer than two components.  With three components or
    more the cut is visible: the version holds exactly one ['.'] and the
    release continues with a ['.'] right after it. *)
Theorem version_is_truncated_prefix (release : string) :
  PyStr.startswith release (version_of_release release) /\
  ((2 <= length (PyStr.split dot release))%nat ->
     version_of_release release = before_occurrence dot 1 release) /\
  ((3 <= length (PyStr.split dot release))%nat ->
     PyStr.count dot (version_of_release release) = 1%nat /\
     exists tail, release = version_of_release release +:+ "." +:+ tail) /\
  ((length (PyStr.split dot release) < 2)%nat ->
     version_of_release release = release).
Proof.
  split; [apply version_of_release_prefix|].
  split; [intros _; apply version_of_release_before|].
  split; [|apply version_of_release_single].
  intros Hlen. split.
  - rewrite version_of_release_count. unfold PyStr.slice_to.
    rewrite length_take. lia.
  - exists (PyStr.join "." (drop 2 (PyStr.split dot release))).
    unfold version_of_release, PyStr.slice_to.
    rewrite <- (join_app dot).
    + rewrite take_drop. symmetry. apply (join_split dot).
    + apply version_parts_not_nil.
    + intros Hnil. apply (f_equal length) in Hnil.
      rewrite length_drop in Hnil. simpl in Hnil. lia.
Qed.

Lemma version_is_truncated_prefix_witness :
  (3 <= length (PyStr.split dot "0.7.2"))%nat /\
  PyStr.count dot (version_of_release "0.7.2") = 1%nat /\
  exists tail, "0.7.2" = version_of_release "0.7.2" +:+ "." +:+ tail.
Proof.
  split; [vm_compute; lia|].
  apply (version_is_truncated_prefix "0.7.2"). vm_compute. lia.
Defined.

(** C10: the derived version contains at most one ['.'], splitting it on
    ['.'] gives at most two components, and it is never longer than the
    release. *)
Theorem version_at_most_one_dot (release : string) :
  (PyStr.count dot (version_of_release release) <= 1)%nat /\
  (length (PyStr.split dot (version_of_release release)) <= 2)%nat /\
  (String.length (version_of_release release) <= String.length release)%nat.
Proof.
  assert (Hcount : (PyStr.count dot (version_of_release release) <= 1)%nat).
  { rewrite version_of_release_count. unfold PyStr.slice_to.
    rewrite length_take. lia. }
  split; [exact Hcount|]. split.
  - rewrite split_length. lia.
  - destruct (version_of_release_prefix release) as [tail Htail].
    rewrite Htail at 2. rewrite str_length_app. lia.
Qed.

(** Truncating twice is truncating once. *)
Lemma version_of_release_idempotent (release : string) :
  version_of_release (version_of_release release) = version_of_release release.
Proof.
  unfold version_of_release at 1.
  unfold version_of_release at 1.
  rewrite (split_join dot).
  - unfold PyStr.slice_to. now rewrite take_take, Nat.min_id.
  - apply version_parts_not_nil.
  - apply version_parts_sep_free.
Qed.

(** * Claims about the whole function *)

(** C2: when the manifest's [package.version] is a string [s], the returned
    release is [s] itself, character for character: the value returned is
    the value looked up. *)
Theorem release_is_manifest_version
    (loads : string -> string + gmap string toml_value) (w : world)
    (content : string) (doc pkg : gmap string toml_value) (s : string) :
  files w !! manifest_loc w = Some (File content) ->
  loads content = inr doc ->
  doc !! "package" = Some (TTable pkg) ->
  pkg !! "version" = Some (TString s) ->
  fst (version loads w) = inr (version_of_release s, TString s).
Proof.
  intros Hfile Hloads Hpkg Hver.
  now rewrite version_unfold, Hfile, Hloads, Hpkg, Hver.
Qed.

Lemma release_is_manifest_version_witness :
  fst (version demo_loads demo_world) = inr ("0.7", TString "0.7.2").
Proof.
  apply (release_is_manifest_version demo_loads demo_world
           demo_manifest demo_doc demo_package "0.7.2");
    vm_compute; reflexivity.
Defined.

(** C3 as stated fails: with the interpreter started in [/tmp/build], the
    manifest two levels above [/repo/doc/src/conf.py] exists and is never
    opened; the path is resolved against the working directory, the call
    opens [/Cargo.toml] and raises. *)
Lemma manifest_not_relative_to_conf_file :
  files stray_world !! conf_relative_manifest conf_py = Some (File demo_manifest) /\
  manifest_loc stray_world <> conf_relative_manifest conf_py /\
  version demo_loads stray_world =
    (inl (FileNotFoundError "../../Cargo.toml"),
     log (EvOpen ["Cargo.toml"]) stray_world).
Proof.
  split; [vm_compute; reflexivity|].
  split; [vm_compute; discriminate|].
  rewrite version_unfold. vm_compute. reflexivity.
Qed.

(** C3, amended: the manifest is opened under the relative name
    [../../Cargo.toml], which the operating system resolves against the
    current working directory of the process: the location opened is two
    levels above the working directory.  It is two levels above the
    directory of the configuration file whenever that directory is the
    working directory. *)
Theorem manifest_relative_to_cwd
    (loads : string -> string + gmap string toml_value) (w : world) :
  manifest_name = "../../Cargo.toml" /\
  (exists later,
     trace (snd (version loads w)) =
       (trace w ++ EvOpen (parent (parent (cwd w)) ++ ["Cargo.toml"]) :: later)%list) /\
  (forall conf_file, cwd w = parent conf_file ->
     manifest_loc w = conf_relative_manifest conf_file).
Proof.
  split; [reflexivity|]. split.
  - rewrite version_final_world, <- manifest_loc_eq. cbn [trace].
    unfold manifest_accesses. eexists. reflexivity.
  - intros conf_file Hcwd. rewrite manifest_loc_eq, Hcwd. reflexivity.
Qed.

Lemma manifest_relative_to_cwd_witness :
  cwd demo_world = parent conf_py /\
  manifest_loc demo_world = ["repo"; "Cargo.toml"].
Proof.
  split; [reflexivity|].
  apply (proj2 (proj2 (manifest_relative_to_cwd demo_loads demo_world)) conf_py).
  reflexivity.
Defined.







(** C6: the version is a function of the release alone, so two calls that
    return the same release return the same version, whatever parser and
    state they ran in; and truncating an already truncated version changes
    nothing. *)
Theorem version_deterministic_idempotent :
  (forall release,
     version_of_release (version_of_release release) = version_of_release release) /\
  (forall loads1 loads2 w1 w2 v1 v2 rel w1' w2',
     version loads1 w1 = (inr (v1, rel), w1') ->
     version loads2 w2 = (inr (v2, rel), w2') ->
     v1 = v2 /\ exists s, rel = TString s /\ v1 = version_of_release s).
Proof.
  split; [apply version_of_release_idempotent|].
  intros loads1 loads2 w1 w2 v1 v2 rel w1' w2' H1 H2.
  apply version_returns_inv in H1 as (_ & _ & _ & s1 & _ & _ & _ & _ & Hr1 & -> & _).
  apply version_returns_inv in H2 as (_ & _ & _ & s2 & _ & _ & _ & _ & Hr2 & -> & _).
  rewrite Hr1 in Hr2. injection Hr2 as <-.
  split; [reflexivity|]. now exists s1.
Qed.

Lemma version_deterministic_idempotent_witness :
  version demo_loads demo_world = (inr ("0.7", TString "0.7.2"), after_read demo_world) /\
  version demo_loads (after_read demo_world) =
    (inr ("0.7", TString "0.7.2"), after_read (after_read demo_world)) /\
  ("0.7" = "0.7" /\ exists s, TString "0.7.2" = TString s /\ "0.7" = version_of_release s).
Proof.
  split; [vm_compute; reflexivity|]. split; [vm_compute; reflexivity|].
  apply (proj2 version_deterministic_idempotent demo_loads demo_loads
           demo_world (after_read demo_world) "0.7" "0.7" (TString "0.7.2")
           (after_read demo_world) (after_read (after_read demo_world)));
    vm_compute; reflexivity.
Defined.

(** C8: the truncation is textual.  Whatever characters the dot-free
    components hold, the first two come back unchanged around a single
    ['.']; [split] accepts every string and its components joined again are
    the string; and a manifest whose version is any string at all, numeric or
    not, makes the call return. *)
Theorem version_purely_textual :
  (forall c1 c2 rest,
     PyStr.count dot c1 = 0%nat -> PyStr.count dot c2 = 0%nat ->
     Forall (fun c => PyStr.count dot c = 0%nat) rest ->
     version_of_release (PyStr.join "." (c1 :: c2 :: rest)) = c1 +:+ "." +:+ c2) /\
  (forall s w,
     exists parts,
       py_split (TString s) dot w = (inr parts, w) /\ PyStr.join "." parts = s) /\
  (forall loads w content doc pkg s,
     files w !! manifest_loc w = Some (File content) ->
     loads content = inr doc ->
     doc !! "package" = Some (TTable pkg) ->
     pkg !! "version" = Some (TString s) ->
     version loads w = (inr (version_of_release s, TString s), after_read w)).
Proof.
  split; [|split].
  - intros c1 c2 rest H1 H2 Hrest. unfold version_of_release.
    rewrite (split_join dot); [reflexivity|discriminate|].
    now repeat constructor.
  - intros s w. exists (PyStr.split dot s). split; [reflexivity|].
    apply (join_split dot).
  - intros loads w content doc pkg s Hfile Hloads Hpkg Hver.
    now rewrite version_unfold, Hfile, Hloads, Hpkg, Hver.
Qed.

(** The example of C8: ["abc.def"] is accepted and comes back whole. *)
Lemma version_purely_textual_witness :
  PyStr.count dot "abc" = 0%nat /\ PyStr.count dot "def" = 0%nat /\
  version_of_release "abc.def" = "abc.def".
Proof.
  split; [reflexivity|]. split; [reflexivity|].
  apply (proj1 version_purely_textual "abc" "def" []);
    [reflexivity | reflexivity | constructor].
Defined.

(** * Further properties of the truncation (line 34) *)

Lemma split_version_of_release (release : string) :
  PyStr.split dot (version_of_release release) =
    take 2 (PyStr.split dot release).
Proof.
  unfold version_of_release. apply (split_join dot).
  - apply version_parts_not_nil.
  - apply version_parts_sep_free.
Qed.

Lemma version_of_release_tail (release : string) :
  (3 <= length (PyStr.split dot release))%nat ->
  exists tail, release = version_of_release release +:+ "." +:+ tail.
Proof.
  intros Hlen. exists (PyStr.join "." (drop 2 (PyStr.split dot release))).
  unfold version_of_release, PyStr.slice_to.
  rewrite <- (join_app dot).
  - rewrite take_drop. symmetry. apply (join_split dot).
  - apply version_parts_not_nil.
  - intros Hnil. apply (f_equal length) in Hnil.
    rewrite length_drop in Hnil. simpl in Hnil. lia.
Qed.

(** X1: splitting the version on ['.'] gives back exactly the first two
    components of the release, so two releases have the same version exactly
    when their first two components agree. *)
Theorem version_components_agree (release : string) :
  PyStr.split dot (version_of_release release) =
    take 2 (PyStr.split dot release) /\
  (forall release',
     version_of_release release = version_of_release release' <->
     take 2 (PyStr.split dot release) = take 2 (PyStr.split dot release')).
Proof.
  split; [apply split_version_of_release|].
  intros release'. split.
  - intros Heq. rewrite <- !split_version_of_release. now rewrite Heq.
  - intros Heq. unfold version_of_release, PyStr.slice_to. now rewrite Heq.
Qed.

(** X2: the version is the whole release exactly when the release holds at
    most one ['.']; it is strictly shorter exactly when the release holds two
    or more; and it is empty exactly when the release is empty. *)
Theorem version_equals_release_iff (release : string) :
  (version_of_release release = release <->
     (PyStr.count dot release <= 1)%nat) /\
  ((String.length (version_of_release release) < String.length release)%nat <->
     (2 <= PyStr.count dot release)%nat) /\
  (version_of_release release = "" <-> release = "").
Proof.
  assert (Hsmall : (PyStr.count dot release <= 1)%nat ->
                   version_of_release release = release).
  { intros Hc. unfold version_of_release, PyStr.slice_to.
    rewrite take_ge by (rewrite split_length; lia). apply (join_split dot). }
  assert (Hbig : (2 <= PyStr.count dot release)%nat ->
                 (String.length (version_of_release release)
                  < String.length release)%nat).
  { intros Hc. destruct (version_of_release_tail release) as [tail Htail].
    - rewrite split_length. lia.
    - rewrite Htail at 2. rewrite !str_length_app. simpl. lia. }
  split; [|split].
  - split; [|exact Hsmall]. intros Heq.
    destruct (Nat.le_gt_cases (PyStr.count dot release) 1) as [Hle|Hgt];
      [exact Hle|].
    apply Hbig in Hgt. rewrite Heq in Hgt. lia.
  - split; [|exact Hbig]. intros Hlt.
    destruct (Nat.le_gt_cases (PyStr.count dot release) 1) as [Hle|Hgt];
      [|exact Hgt].
    rewrite (Hsmall Hle) in Hlt. lia.
  - split; [|intros ->; reflexivity]. intros Hempty.
    destruct (Nat.le_gt_cases (PyStr.count dot release) 0) as [Hle|Hgt].
    + rewrite <- Hempty. symmetry. apply Hsmall. lia.
    + exfalso. pose proof (split_length dot release) as Hlen.
      unfold version_of_release, PyStr.slice_to in Hempty.
      destruct (PyStr.split dot release) as [|c1 [|c2 rest]];
        simpl in Hlen; try lia.
      apply (f_equal String.length) in Hempty.
      change (PyStr.join "." (take 2 (c1 :: c2 :: rest)))
        with (c1 +:+ "." +:+ c2) in Hempty.
      rewrite !str_length_app in Hempty. simpl in Hempty. lia.
Qed.


(** * Further properties of [version] (lines 31-35) *)


(** X3: the call returns a pair exactly when the manifest is a regular file
    whose text the parser accepts and whose [package] table holds a string
    under [version]; the pair is then that string and its truncation. *)
Theorem version_returns_iff
    (loads : string -> string + gmap string toml_value) (w : world)
    (v : string) (rel : toml_value) :
  fst (version loads w) = inr (v, rel) <->
  exists content doc pkg s,
    files w !! manifest_loc w = Some (File content) /\
    loads content = inr doc /\
    doc !! "package" = Some (TTable pkg) /\
    pkg !! "version" = Some (TString s) /\
    rel = TString s /\ v = version_of_release s.
Proof.
  split.
  - destruct (version loads w) as [r w'] eqn:Hrun. simpl. intros ->.
    apply version_returns_inv in Hrun
      as (content & doc & pkg & s & ? & ? & ? & ? & ? & ? & _).
    now exists content, doc, pkg, s.
  - intros (content & doc & pkg & s & Hfile & Hloads & Hpkg & Hver & -> & ->).
    now rewrite version_unfold, Hfile, Hloads, Hpkg, Hver.
Qed.







(** * The module body (lines 3-101) *)




